(** * OpenLLM: Dolly-v2 configuration and the quantisation selector

    A shallow embedding of

    - [openllm_core/config/configuration_dolly_v2.py]: the prompt template,
      [get_special_token_id], [DollyV2Config.sanitize_parameters] and
      [DollyV2Config.postprocess_generate];
    - [openllm/_quantisation.py]: [infer_quantisation_config].

    Python dictionaries are finite maps from strings to Python values,
    exceptions are an explicit result type, and the keyword dictionary that
    [infer_quantisation_config] mutates with [pop] is threaded through a small
    state-and-exception monad. *)

From Stdlib Require Import ZArith Floats Ascii String DecimalString List.
From stdpp Require Import base option list gmap strings.

Set Warnings "-register-all,-inexact-float".

Local Open Scope string_scope.
Local Open Scope Z_scope.

(** ** Python values, exceptions and builtins *)

Module Py.

(** The Python values that occur as keyword arguments and dictionary
    entries.  [PyObj] stands for an opaque object known by its qualified
    name, such as [torch.bfloat16]. *)
Inductive PyVal : Type :=
| PyNone
| PyBool (b : bool)
| PyInt (n : Z)
| PyFloat (x : float)
| PyStr (s : string)
| PyList (l : list PyVal)
| PyObj (name : string).

(** The exception classes raised by the two modules.  [Unmodelled] is not a
    Python exception: it marks builtin behaviour left out of the embedding
    (format specifications and conversions in [str.format]). *)
Inductive PyExc : Type :=
| RuntimeError (msg : string)
| ValueError (msg : string)
| MissingDependencyError (msg : string)
| IndexError (msg : string)
| KeyError (key : string)
| Unmodelled (what : string).

Inductive Result (A : Type) : Type :=
| Ok (a : A)
| Raise (e : PyExc).
Arguments Ok {A} a.
Arguments Raise {A} e.

Definition rmap {A B} (f : A → B) (r : Result A) : Result B :=
  match r with Ok a => Ok (f a) | Raise e => Raise e end.

Definition rbind {A B} (r : Result A) (k : A → Result B) : Result B :=
  match r with Ok a => k a | Raise e => Raise e end.

(** Characters that cannot be written inside a string literal. *)
Definition dq : string := String "034"%char EmptyString.
Definition nl : string := String "010"%char EmptyString.

(** [needle in hay] on strings. *)
Fixpoint starts_with (p s : string) : bool :=
  match p, s with
  | EmptyString, _ => true
  | String a p', String b s' => Ascii.eqb a b && starts_with p' s'
  | String _ _, EmptyString => false
  end.

Fixpoint contains (needle hay : string) : bool :=
  starts_with needle hay ||
  match hay with
  | EmptyString => false
  | String _ hay' => contains needle hay'
  end.

(** [repr] of an int, of a list of ints and of a list of strings. *)
Definition repr_int (n : Z) : string := NilZero.string_of_int (Z.to_int n).

Fixpoint join (sep : string) (l : list string) : string :=
  match l with
  | [] => ""
  | [s] => s
  | s :: l' => s ++ sep ++ join sep l'
  end.

Definition repr_int_list (l : list Z) : string :=
  "[" ++ join ", " (map repr_int l) ++ "]".

Definition repr_str_list (l : list string) : string :=
  "[" ++ join ", " (map (λ s, "'" ++ s ++ "'") l) ++ "]".

(** [l[0]] *)
Definition first {A} (l : list A) : Result A :=
  match l with
  | [] => Raise (IndexError "list index out of range")
  | x :: _ => Ok x
  end.

(** [d[k]] *)
Definition getitem {A} (d : gmap string A) (k : string) : Result A :=
  match d !! k with
  | Some v => Ok v
  | None => Raise (KeyError k)
  end.

(** [{**base, **extra}]: the entries of [extra] win. *)
Definition dict_update {A} (base extra : gmap string A) : gmap string A :=
  extra ∪ base.

(** [str.format] with keyword arguments, restricted to replacement fields
    that are plain names, which is all the templates of the package use.
    The scanner is the state machine of the builtin: doubled braces are
    literal braces, a lone closing brace is a [ValueError], a missing
    keyword is a [KeyError]. *)
Inductive FmtState : Type :=
| InText
| SawOpen
| InField (name : string)
| SawClose.

Definition lookup_kw (name : string) (kw : list (string * string)) : option string :=
  snd <$> List.find (λ p, String.eqb (fst p) name) kw.

Definition spec_char (c : ascii) : bool :=
  Ascii.eqb c "!" || Ascii.eqb c ":" || Ascii.eqb c "." || Ascii.eqb c "[".

Fixpoint format_from (kw : list (string * string)) (st : FmtState) (tpl : string)
  : Result string :=
  match tpl with
  | EmptyString =>
      match st with
      | InText => Ok ""
      | SawOpen => Raise (ValueError "Single '{' encountered in format string")
      | InField _ => Raise (ValueError "expected '}' before end of string")
      | SawClose => Raise (ValueError "Single '}' encountered in format string")
      end
  | String c rest =>
      match st with
      | InText =>
          if Ascii.eqb c "{" then format_from kw SawOpen rest
          else if Ascii.eqb c "}" then format_from kw SawClose rest
          else rmap (String c) (format_from kw InText rest)
      | SawOpen =>
          if Ascii.eqb c "{" then rmap (String c) (format_from kw InText rest)
          else if Ascii.eqb c "}" then
            Raise (IndexError "Replacement index 0 out of range for positional args tuple")
          else if spec_char c then Raise (Unmodelled "format specification")
          else format_from kw (InField (String c EmptyString)) rest
      | InField name =>
          if Ascii.eqb c "}" then
            match lookup_kw name kw with
            | Some v => rmap (String.append v) (format_from kw InText rest)
            | None => Raise (KeyError name)
            end
          else if spec_char c then Raise (Unmodelled "format specification")
          else format_from kw (InField (name ++ String c EmptyString)) rest
      | SawClose =>
          if Ascii.eqb c "}" then rmap (String c) (format_from kw InText rest)
          else Raise (ValueError "Single '}' encountered in format string")
      end
  end.

Definition str_format (tpl : string) (kw : list (string * string)) : Result string :=
  format_from kw InText tpl.

End Py.

Import Py.

(** ** configuration_dolly_v2.py *)

Module DollyV2.

Definition INSTRUCTION_KEY : string := "### Instruction:".
Definition RESPONSE_KEY : string := "### Response:".
Definition END_KEY : string := "### End".
Definition INTRO_BLURB : string :=
  "Below is an instruction that describes a task. Write a response that appropriately completes the request.".

(** The triple-quoted literal, before [.format] is applied to it. *)
Definition template_literal : string :=
  "{intro}" ++ nl ++ "{instruction_key}" ++ nl ++ "{instruction}" ++ nl
    ++ "{response_key}" ++ nl.

Definition template_format : Result string :=
  str_format template_literal
    [("intro", INTRO_BLURB); ("instruction_key", INSTRUCTION_KEY);
     ("instruction", "{instruction}"); ("response_key", RESPONSE_KEY)].

Definition DEFAULT_PROMPT_TEMPLATE : string :=
  Eval vm_compute in
    match template_format with Ok s => s | Raise _ => "" end.

(** A tokenizer is used through [encode] only. *)
Record Tokenizer : Type := { encode : string → list Z }.

Definition get_special_token_id (tokenizer : Tokenizer) (key : string) : Result Z :=
  let token_ids := encode tokenizer key in
  if (1 <? length token_ids)%nat then
    Raise (ValueError ("Expected only a single token for '" ++ key
                         ++ "' but found " ++ repr_int_list token_ids))
  else first token_ids.

(** [GenerationConfig] of the class. *)
Record GenerationConfig : Type := {
  temperature : float;
  top_p : float;
  top_k : Z;
  max_new_tokens : Z;
  eos_token_id : Z
}.

Definition generation_config : GenerationConfig :=
  {| temperature := 0.9%float; top_p := 0.92%float; top_k := 5;
     max_new_tokens := 256; eos_token_id := 50277 |}.

Section SanitizeParameters.

(** [openllm_core._prompt.process_prompt], called with the prompt, the
    template, the flag and the remaining keyword arguments. *)
Variable process_prompt :
  string → string → bool → gmap string PyVal → Result string.

(** An argument left at its default is [PyNone].  The tuple is evaluated
    left to right: the prompt first, then the dictionary display. *)
Definition sanitize_parameters
    (prompt : string) (max_new_tokens temperature top_k top_p : PyVal)
    (use_default_prompt_template : bool) (attrs : gmap string PyVal)
  : Result (string * gmap string PyVal * gmap string PyVal) :=
  rbind (process_prompt prompt DEFAULT_PROMPT_TEMPLATE use_default_prompt_template attrs)
    (λ p,
      Ok (p,
          dict_update
            (<["temperature" := temperature]>
               (<["top_p" := top_p]>
                  (<["top_k" := top_k]>
                     (<["max_new_tokens" := max_new_tokens]> ∅))))
            attrs,
          ∅)).

End SanitizeParameters.

(** Modelled from the spec: [process_prompt] lives in [openllm_core._prompt],
    which is not among the sources.  The spec says that when template
    application is requested the instruction is wrapped inside the fixed
    template, and that otherwise the instruction passes through unchanged;
    wrapping fills the [{instruction}] field of the template. *)
Definition process_prompt (prompt template : string) (use_prompt_template : bool)
    (attrs : gmap string PyVal) : Result string :=
  if use_prompt_template then str_format template [("instruction", prompt)]
  else Ok prompt.

(** The names bound by the signature of [sanitize_parameters]; Python never
    leaves one of them in [**attrs]. *)
Definition named_parameters : list string :=
  ["self"; "prompt"; "max_new_tokens"; "temperature"; "top_k"; "top_p";
   "use_default_prompt_template"].

Definition kwargs_ok (attrs : gmap string PyVal) : Prop :=
  Forall (λ k, attrs !! k = None) named_parameters.

(** A tokenizer that knows [### End] as the single token 50277 and splits
    everything else in two. *)
Definition sample_tokenizer : Tokenizer :=
  {| encode := λ s, if String.eqb s END_KEY then [eos_token_id generation_config]
                    else [21; 7] |}.

(** A tokenizer that encodes every string to no token at all. *)
Definition silent_tokenizer : Tokenizer := {| encode := λ _, [] |}.

(** [generation_result[0]['generated_text']]; the prompt and the other
    keyword arguments are ignored. *)
Definition postprocess_generate (prompt : string)
    (generation_result : list (gmap string PyVal)) (kw : gmap string PyVal)
  : Result PyVal :=
  rbind (first generation_result) (λ d, getitem d "generated_text").

End DollyV2.


(** ** _quantisation.py *)

Module Quantisation.

(** The process-wide facts the function reads: which optional backends can be
    imported ([openllm_core.utils.is_*_available]) and whether
    [torch.cuda.is_available()]. *)
Record Env : Type := {
  is_bitsandbytes_available : bool;
  is_autogptq_available : bool;
  is_optimum_supports_gptq : bool;
  is_autoawq_available : bool;
  cuda_is_available : bool
}.

(** Of [self : LLM] only [model_id] is read. *)
Record LLM : Type := { model_id : string }.

(** The object handed back is one of three [transformers] classes, built from
    keyword arguments; the embedding keeps the class and the keyword
    arguments of the constructor call, in the order of the call. *)
Inductive QuantisationConfig : Type :=
| BitsAndBytesConfig (kwargs : list (string * PyVal))
| GPTQConfig (kwargs : list (string * PyVal))
| AwqConfig (kwargs : list (string * PyVal)).

Definition kwargs_of (c : QuantisationConfig) : list (string * PyVal) :=
  match c with
  | BitsAndBytesConfig kw | GPTQConfig kw | AwqConfig kw => kw
  end.

(** The class of the object, and the class each [@overload] of
    [infer_quantisation_config] declares for a mode. *)
Inductive ConfigClass : Type := ClsBitsAndBytes | ClsGPTQ | ClsAwq.

Definition class_of (c : QuantisationConfig) : ConfigClass :=
  match c with
  | BitsAndBytesConfig _ => ClsBitsAndBytes
  | GPTQConfig _ => ClsGPTQ
  | AwqConfig _ => ClsAwq
  end.

Definition overload_class (quantise : string) : option ConfigClass :=
  if String.eqb quantise "int8" || String.eqb quantise "int4" then Some ClsBitsAndBytes
  else if String.eqb quantise "gptq" then Some ClsGPTQ
  else if String.eqb quantise "awq" then Some ClsAwq
  else None.

(** The value the constructor received under a keyword. *)
Definition kwarg (c : QuantisationConfig) (name : string) : option PyVal :=
  snd <$> List.find (λ p, String.eqb (fst p) name) (kwargs_of c).

(** Computations over the mutable [attrs] dictionary that may raise. *)
Definition Attrs (A : Type) : Type :=
  gmap string PyVal → Result (A * gmap string PyVal).

Definition ret {A} (a : A) : Attrs A := λ d, Ok (a, d).

Definition bind {A B} (m : Attrs A) (k : A → Attrs B) : Attrs B :=
  λ d, match m d with
       | Ok (a, d') => k a d'
       | Raise e => Raise e
       end.

Definition raise {A} (e : PyExc) : Attrs A := λ _, Raise e.

(** [attrs.pop(key, default)] *)
Definition pop (key : string) (default : PyVal) : Attrs PyVal :=
  λ d, Ok (from_option id default (d !! key), delete key d).

Notation "'let*' x ':=' m 'in' k" := (bind m (λ x, k))
  (at level 10, x name, m at level 100, k at level 200).

Definition create_awq_config (bits group_size : PyVal) : Attrs QuantisationConfig :=
  let* zero_point := pop "zero_point" (PyBool true) in
  ret (AwqConfig
         [("bits", bits); ("group_size", group_size); ("zero_point", zero_point)]).

Definition create_gptq_config (env : Env) (self : LLM) (bits group_size : PyVal)
  : Attrs QuantisationConfig :=
  let* gptq_tokenizer := pop "tokenizer" (PyStr (model_id self)) in
  let* gptq_dataset := pop "dataset" (PyStr "c4") in
  let* gptq_damp_percent := pop "damp_percent" (PyFloat 0.1) in
  let* gptq_desc_act := pop "desc_act" (PyBool false) in
  let* gptq_sym := pop "sym" (PyBool true) in
  let* gptq_true_sequential := pop "true_sequential" (PyBool true) in
  let* gptq_use_cuda_fp16 :=
    pop "use_cuda_fp16" (PyBool (if cuda_is_available env then true else false)) in
  let* gptq_model_seqlen := pop "model_seqlen" PyNone in
  let* gptq_block_name_to_quantize := pop "block_name_to_quantize" PyNone in
  let* gptq_module_name_preceding_first_block :=
    pop "module_name_preceding_first_block" PyNone in
  let* gptq_batch_size := pop "batch_size" (PyInt 1) in
  let* gptq_pad_token_id := pop "pad_token_id" PyNone in
  let* gptq_disable_exllama := pop "disable_exllama" (PyBool false) in
  ret (GPTQConfig
         [("bits", bits);
          ("tokenizer", gptq_tokenizer);
          ("dataset", gptq_dataset);
          ("group_size", group_size);
          ("damp_percent", gptq_damp_percent);
          ("desc_act", gptq_desc_act);
          ("sym", gptq_sym);
          ("true_sequential", gptq_true_sequential);
          ("use_cuda_fp16", gptq_use_cuda_fp16);
          ("model_seqlen", gptq_model_seqlen);
          ("block_name_to_quantize", gptq_block_name_to_quantize);
          ("module_name_preceding_first_block", gptq_module_name_preceding_first_block);
          ("batch_size", gptq_batch_size);
          ("pad_token_id", gptq_pad_token_id);
          ("disable_exllama", gptq_disable_exllama)]).

Definition create_int8_config
    (int8_enable_fp32_cpu_offload int8_threshold int8_has_fp16_weight : PyVal)
    (int8_skip_modules : PyVal) : Attrs QuantisationConfig :=
  ret (BitsAndBytesConfig
         [("load_in_8bit", PyBool true);
          ("llm_int8_enable_fp32_cpu_offload", int8_enable_fp32_cpu_offload);
          ("llm_int8_threshhold", int8_threshold);
          ("llm_int8_skip_modules", int8_skip_modules);
          ("llm_int8_has_fp16_weight", int8_has_fp16_weight)]).

Definition bitsandbytes_message : string :=
  "Quantization requires bitsandbytes to be installed. Make sure to install OpenLLM with 'pip install "
    ++ dq ++ "openllm[fine-tune]" ++ dq ++ "'".

Definition gptq_message : string :=
  "'quantize=" ++ dq ++ "gptq" ++ dq
    ++ "' requires 'auto-gptq' and 'optimum>=0.12' to be installed (missing or failed to import). Make sure to do 'pip install "
    ++ dq ++ "openllm[gptq]" ++ dq ++ "'".

Definition awq_message : string :=
  "quantize='awq' requires 'auto-awq' to be installed (missing or failed to import). Make sure to do 'pip install "
    ++ dq ++ "openllm[awq]" ++ dq ++ "'.".

Definition unknown_message (quantise : string) : string :=
  "'quantize' must be one of ['int8', 'int4', 'gptq', 'awq'], got " ++ quantise
    ++ " instead.".

(** The body, as a computation over [attrs]. *)
Definition infer_body (env : Env) (self : LLM) (quantise : string)
  : Attrs QuantisationConfig :=
  let* int8_threshold := pop "llm_int8_threshhold" (PyFloat 6.0) in
  let* int8_enable_fp32_cpu_offload :=
    pop "llm_int8_enable_fp32_cpu_offload" (PyBool false) in
  let* int8_skip_modules := pop "llm_int8_skip_modules" PyNone in
  let* int8_has_fp16_weight := pop "llm_int8_has_fp16_weight" (PyBool false) in
  let* bits := pop "bits" (PyInt 4) in
  let* group_size := pop "group_size" (PyInt 128) in
  let* int4_compute_dtype := pop "bnb_4bit_compute_dtype" (PyObj "torch.bfloat16") in
  let* int4_quant_type := pop "bnb_4bit_quant_type" (PyStr "nf4") in
  let* int4_use_double_quant := pop "bnb_4bit_use_double_quant" (PyBool true) in
  if negb (is_bitsandbytes_available env) then
    raise (RuntimeError bitsandbytes_message)
  else if String.eqb quantise "int8" then
    create_int8_config int8_enable_fp32_cpu_offload int8_threshold
      int8_has_fp16_weight int8_skip_modules
  else if String.eqb quantise "int4" then
    ret (BitsAndBytesConfig
           [("load_in_4bit", PyBool true);
            ("bnb_4bit_compute_dtype", int4_compute_dtype);
            ("bnb_4bit_quant_type", int4_quant_type);
            ("bnb_4bit_use_double_quant", int4_use_double_quant)])
  else if String.eqb quantise "gptq" then
    if negb (is_autogptq_available env) || negb (is_optimum_supports_gptq env) then
      raise (MissingDependencyError gptq_message)
    else create_gptq_config env self bits group_size
  else if String.eqb quantise "awq" then
    if negb (is_autoawq_available env) then
      raise (MissingDependencyError awq_message)
    else create_awq_config bits group_size
  else raise (ValueError (unknown_message quantise)).

(** [infer_quantisation_config(self, quantise, **attrs)]: the configuration
    together with what is left of [attrs]. *)
Definition infer_quantisation_config (env : Env) (self : LLM) (quantise : string)
    (attrs : gmap string PyVal) : Result (QuantisationConfig * gmap string PyVal) :=
  infer_body env self quantise attrs.

(** The modes the chain of comparisons recognises, in its order. *)
Definition accepted_modes : list string := ["int8"; "int4"; "gptq"; "awq"].

(** The keys popped before the mode is looked at, and the keys popped by the
    branch of each mode. *)
Definition shared_keys : list string :=
  ["llm_int8_threshhold"; "llm_int8_enable_fp32_cpu_offload";
   "llm_int8_skip_modules"; "llm_int8_has_fp16_weight";
   "bits"; "group_size";
   "bnb_4bit_compute_dtype"; "bnb_4bit_quant_type"; "bnb_4bit_use_double_quant"].

Definition gptq_keys : list string :=
  ["tokenizer"; "dataset"; "damp_percent"; "desc_act"; "sym"; "true_sequential";
   "use_cuda_fp16"; "model_seqlen"; "block_name_to_quantize";
   "module_name_preceding_first_block"; "batch_size"; "pad_token_id";
   "disable_exllama"].

Definition branch_keys (quantise : string) : list string :=
  if String.eqb quantise "gptq" then gptq_keys
  else if String.eqb quantise "awq" then ["zero_point"]
  else [].

Definition consumed_keys (quantise : string) : list string :=
  shared_keys ++ branch_keys quantise.

(** Whether the backends a mode needs can be imported. *)
Definition backends_available (env : Env) (quantise : string) : bool :=
  is_bitsandbytes_available env &&
  (if String.eqb quantise "gptq" then
     is_autogptq_available env && is_optimum_supports_gptq env
   else if String.eqb quantise "awq" then is_autoawq_available env
   else true).

Definition all_available : Env :=
  {| is_bitsandbytes_available := true; is_autogptq_available := true;
     is_optimum_supports_gptq := true; is_autoawq_available := true;
     cuda_is_available := false |}.

(** [arg attrs key d] is the caller's entry under [key], or [d] when there is
    none: what [attrs.pop(key, d)] returns on the dictionary as the caller
    passed it. *)
Definition arg (attrs : gmap string PyVal) (key : string) (d : PyVal) : PyVal :=
  default d (attrs !! key).

(** The keyword arguments of each constructor call, with every popped value
    read from the caller's dictionary. *)
Definition int8_kwargs (attrs : gmap string PyVal) : list (string * PyVal) :=
  [("load_in_8bit", PyBool true);
   ("llm_int8_enable_fp32_cpu_offload",
     arg attrs "llm_int8_enable_fp32_cpu_offload" (PyBool false));
   ("llm_int8_threshhold", arg attrs "llm_int8_threshhold" (PyFloat 6.0));
   ("llm_int8_skip_modules", arg attrs "llm_int8_skip_modules" PyNone);
   ("llm_int8_has_fp16_weight", arg attrs "llm_int8_has_fp16_weight" (PyBool false))].

Definition int4_kwargs (attrs : gmap string PyVal) : list (string * PyVal) :=
  [("load_in_4bit", PyBool true);
   ("bnb_4bit_compute_dtype", arg attrs "bnb_4bit_compute_dtype" (PyObj "torch.bfloat16"));
   ("bnb_4bit_quant_type", arg attrs "bnb_4bit_quant_type" (PyStr "nf4"));
   ("bnb_4bit_use_double_quant", arg attrs "bnb_4bit_use_double_quant" (PyBool true))].

Definition gptq_kwargs (env : Env) (self : LLM) (attrs : gmap string PyVal)
  : list (string * PyVal) :=
  [("bits", arg attrs "bits" (PyInt 4));
   ("tokenizer", arg attrs "tokenizer" (PyStr (model_id self)));
   ("dataset", arg attrs "dataset" (PyStr "c4"));
   ("group_size", arg attrs "group_size" (PyInt 128));
   ("damp_percent", arg attrs "damp_percent" (PyFloat 0.1));
   ("desc_act", arg attrs "desc_act" (PyBool false));
   ("sym", arg attrs "sym" (PyBool true));
   ("true_sequential", arg attrs "true_sequential" (PyBool true));
   ("use_cuda_fp16", arg attrs "use_cuda_fp16" (PyBool (cuda_is_available env)));
   ("model_seqlen", arg attrs "model_seqlen" PyNone);
   ("block_name_to_quantize", arg attrs "block_name_to_quantize" PyNone);
   ("module_name_preceding_first_block",
     arg attrs "module_name_preceding_first_block" PyNone);
   ("batch_size", arg attrs "batch_size" (PyInt 1));
   ("pad_token_id", arg attrs "pad_token_id" PyNone);
   ("disable_exllama", arg attrs "disable_exllama" (PyBool false))].

Definition awq_kwargs (attrs : gmap string PyVal) : list (string * PyVal) :=
  [("bits", arg attrs "bits" (PyInt 4));
   ("group_size", arg attrs "group_size" (PyInt 128));
   ("zero_point", arg attrs "zero_point" (PyBool true))].

(** The constructor call of the branch a mode selects; the unknown-mode case
    never builds anything and is given the awq shape only to keep the
    function total. *)
Definition branch_config (env : Env) (self : LLM) (quantise : string)
    (attrs : gmap string PyVal) : QuantisationConfig :=
  if String.eqb quantise "int8" then BitsAndBytesConfig (int8_kwargs attrs)
  else if String.eqb quantise "int4" then BitsAndBytesConfig (int4_kwargs attrs)
  else if String.eqb quantise "gptq" then GPTQConfig (gptq_kwargs env self attrs)
  else AwqConfig (awq_kwargs attrs).

(** The outlier threshold of the object as the library fills it in.
    [transformers.BitsAndBytesConfig] is not part of the repository; its
    constructor has the parameter [llm_int8_threshold], with default 6.0, and
    a keyword of another name does not reach that field. *)
Definition library_threshold (c : QuantisationConfig) : PyVal :=
  default (PyFloat 6.0) (kwarg c "llm_int8_threshold").

(** A reading of the threshold that is determined by the value passed under
    the parameter name of the library. *)
Definition reads_threshold_keyword (threshold : QuantisationConfig → PyVal) : Prop :=
  ∀ c1 c2 : QuantisationConfig,
    kwarg c1 "llm_int8_threshold" = kwarg c2 "llm_int8_threshold" →
    threshold c1 = threshold c2.

(** Two dictionaries that agree on a list of keys. *)
Definition agree_on (keys : list string) (d1 d2 : gmap string PyVal) : Prop :=
  ∀ k, k ∈ keys → d1 !! k = d2 !! k.

End Quantisation.

Import DollyV2 Quantisation.


(** ** Auxiliary facts *)

(** Looking a key up after a run of deletions. *)
Lemma lookup_after_deletes (keys : list string) (d : gmap string PyVal) (k : string) :
  foldr delete d keys !! k = if bool_decide (k ∈ keys) then None else d !! k.
Proof.
  case_bool_decide as Hk.
  - by apply lookup_foldr_delete.
  - by apply lookup_foldr_delete_not_elem_of.
Qed.

(** A mode outside the accepted list fails every comparison of the chain. *)
Lemma not_accepted_eqb (quantise : string) :
  quantise ∉ accepted_modes →
  String.eqb quantise "int8" = false ∧ String.eqb quantise "int4" = false ∧
  String.eqb quantise "gptq" = false ∧ String.eqb quantise "awq" = false.
Proof.
  intros Hq. repeat split; apply String.eqb_neq; intros ->; apply Hq;
    unfold accepted_modes; set_solver.
Qed.

(** The pops before the branch cannot fail and leave [attrs] without the
    shared keys, whatever the mode. *)
Ltac run_pops :=
  unfold infer_quantisation_config, infer_body, create_int8_config,
    create_gptq_config, create_awq_config, bind, pop, ret, raise; cbn.

(** [contains] decides the existence of an occurrence. *)
Lemma starts_with_spec (p s : string) :
  starts_with p s = true ↔ ∃ t, s = (p ++ t)%string.
Proof.
  revert s. induction p as [|a p IH]; intros s; cbn.
  - split; [intros _; by exists s | done].
  - destruct s as [|b s]; cbn.
    + split; [done | intros [t Ht]; discriminate].
    + rewrite andb_true_iff, IH. split.
      * intros [Hab [t ->]]. apply Ascii.eqb_eq in Hab as ->. by exists t.
      * intros [t Ht]. injection Ht as -> ->. split; [apply Ascii.eqb_refl | by exists t].
Qed.

Lemma contains_spec (needle hay : string) :
  contains needle hay = true ↔ ∃ pre post, hay = (pre ++ needle ++ post)%string.
Proof.
  induction hay as [|c hay IH]; cbn.
  - rewrite orb_false_r, starts_with_spec. split.
    + intros [t Ht]. by exists "", t.
    + intros [pre [post H]]. destruct pre; [by exists post | discriminate].
  - rewrite orb_true_iff, starts_with_spec, IH. split.
    + intros [[t Ht] | [pre [post ->]]].
      * by exists "", t.
      * by exists (String c pre), post.
    + intros [pre [post H]]. destruct pre as [|c' pre]; cbn in H.
      * left. by exists post.
      * right. injection H as -> ->. by exists pre, post.
Qed.

(** ** The quantisation selector *)

(** C1.  When bitsandbytes cannot be imported, [infer_quantisation_config]
    fails whatever mode is requested (accepted or not) and whatever the
    overrides are: the availability check comes after the pops, which cannot
    fail, and before the mode is looked at.  The exception is the
    [RuntimeError] whose message names bitsandbytes and how to install it. *)
Theorem bitsandbytes_missing_fails_any_mode
    (env : Env) (self : LLM) (quantise : string) (attrs : gmap string PyVal) :
  is_bitsandbytes_available env = false →
  infer_quantisation_config env self quantise attrs
    = Raise (RuntimeError bitsandbytes_message)
  ∧ contains "requires bitsandbytes to be installed" bitsandbytes_message = true.
Proof.
  intros Hbnb. split; [| by vm_compute].
  run_pops. by rewrite Hbnb.
Qed.

Lemma bitsandbytes_missing_fails_any_mode_witness :
  infer_quantisation_config
    {| is_bitsandbytes_available := false; is_autogptq_available := true;
       is_optimum_supports_gptq := true; is_autoawq_available := true;
       cuda_is_available := true |}
    {| model_id := "databricks/dolly-v2-3b" |} "awq" {[ "bits" := PyInt 8 ]}
    = Raise (RuntimeError bitsandbytes_message)
  ∧ contains "requires bitsandbytes to be installed" bitsandbytes_message = true.
Proof.
  apply (bitsandbytes_missing_fails_any_mode
           {| is_bitsandbytes_available := false; is_autogptq_available := true;
              is_optimum_supports_gptq := true; is_autoawq_available := true;
              cuda_is_available := true |}).
  reflexivity.
Defined.

(** C4.  With bitsandbytes importable (the precondition of the selector), a
    mode outside the accepted list raises [ValueError], and the message
    spells out the accepted list, in the order int8, int4, gptq, awq, followed
    by the mode that was given. *)
Theorem unknown_mode_raises_value_error
    (env : Env) (self : LLM) (quantise : string) (attrs : gmap string PyVal) :
  is_bitsandbytes_available env = true →
  quantise ∉ accepted_modes →
  infer_quantisation_config env self quantise attrs
    = Raise (ValueError ("'quantize' must be one of " ++ repr_str_list accepted_modes
                           ++ ", got " ++ quantise ++ " instead.")).
Proof.
  intros Hbnb Hq.
  destruct (not_accepted_eqb quantise Hq) as (H8 & H4 & Hg & Ha).
  run_pops. by rewrite Hbnb, H8, H4, Hg, Ha.
Qed.

Lemma unknown_mode_raises_value_error_witness :
  infer_quantisation_config all_available {| model_id := "databricks/dolly-v2-3b" |}
    "unknown" ∅
    = Raise (ValueError
               "'quantize' must be one of ['int8', 'int4', 'gptq', 'awq'], got unknown instead.").
Proof.
  apply (unknown_mode_raises_value_error all_available
           {| model_id := "databricks/dolly-v2-3b" |} "unknown" ∅).
  - reflexivity.
  - unfold accepted_modes. intros H. repeat (apply elem_of_cons in H as [H | H]; [discriminate |]).
    by apply elem_of_nil in H.
Defined.

(** C5.  With bitsandbytes importable, mode gptq raises
    [MissingDependencyError] as soon as auto-gptq or the GPTQ support of
    optimum is missing, and the message names both packages. *)
Theorem gptq_missing_backend_raises
    (env : Env) (self : LLM) (attrs : gmap string PyVal) :
  is_bitsandbytes_available env = true →
  is_autogptq_available env = false ∨ is_optimum_supports_gptq env = false →
  infer_quantisation_config env self "gptq" attrs
    = Raise (MissingDependencyError gptq_message)
  ∧ contains "'auto-gptq'" gptq_message = true
  ∧ contains "'optimum" gptq_message = true.
Proof.
  intros Hbnb Hmiss. split; [| by vm_compute].
  run_pops. rewrite Hbnb. cbn.
  destruct Hmiss as [-> | ->]; cbn; [done |].
  by destruct (is_autogptq_available env).
Qed.

Lemma gptq_missing_backend_raises_witness :
  infer_quantisation_config
    {| is_bitsandbytes_available := true; is_autogptq_available := true;
       is_optimum_supports_gptq := false; is_autoawq_available := true;
       cuda_is_available := false |}
    {| model_id := "databricks/dolly-v2-3b" |} "gptq" {[ "bits" := PyInt 8 ]}
    = Raise (MissingDependencyError gptq_message)
  ∧ contains "'auto-gptq'" gptq_message = true
  ∧ contains "'optimum" gptq_message = true.
Proof.
  apply (gptq_missing_backend_raises
           {| is_bitsandbytes_available := true; is_autogptq_available := true;
              is_optimum_supports_gptq := false; is_autoawq_available := true;
              cuda_is_available := false |}).
  - reflexivity.
  - right. reflexivity.
Defined.

(** C6.  With bitsandbytes importable, mode int8 without overrides builds a
    [BitsAndBytesConfig] with [load_in_8bit=True], and the threshold 6.0 is
    handed over.  The override [llm_int8_threshhold=5.0] is popped and handed
    to the constructor under the same misspelled keyword
    [llm_int8_threshhold]; the keyword [llm_int8_threshold] of the library is
    never passed.  So under every reading of the threshold that goes by the
    library's keyword the two calls give the same threshold, and with the
    library's default it is 6.0 in both: the override is not reflected in
    the configuration. *)
Theorem int8_threshold_override_not_reflected
    (env : Env) (self : LLM) (threshold : QuantisationConfig → PyVal) :
  is_bitsandbytes_available env = true →
  reads_threshold_keyword threshold →
  ∃ kw0 kw5,
    infer_quantisation_config env self "int8" ∅ = Ok (BitsAndBytesConfig kw0, ∅)
    ∧ infer_quantisation_config env self "int8"
        {[ "llm_int8_threshhold" := PyFloat 5.0 ]} = Ok (BitsAndBytesConfig kw5, ∅)
    ∧ kwarg (BitsAndBytesConfig kw0) "load_in_8bit" = Some (PyBool true)
    ∧ kwarg (BitsAndBytesConfig kw0) "llm_int8_threshhold" = Some (PyFloat 6.0)
    ∧ kwarg (BitsAndBytesConfig kw5) "llm_int8_threshhold" = Some (PyFloat 5.0)
    ∧ kwarg (BitsAndBytesConfig kw5) "llm_int8_threshold" = None
    ∧ threshold (BitsAndBytesConfig kw5) = threshold (BitsAndBytesConfig kw0)
    ∧ library_threshold (BitsAndBytesConfig kw5) = PyFloat 6.0.
Proof.
  intros Hbnb Hreads. eexists _, _.
  split; [unfold infer_quantisation_config, infer_body, bind; rewrite Hbnb;
          vm_compute; reflexivity |].
  split; [unfold infer_quantisation_config, infer_body, bind; rewrite Hbnb;
          vm_compute; reflexivity |].
  repeat split; try reflexivity.
  apply Hreads. reflexivity.
Qed.

Lemma int8_threshold_override_not_reflected_witness :
  ∃ kw0 kw5,
    infer_quantisation_config all_available {| model_id := "databricks/dolly-v2-3b" |}
      "int8" ∅ = Ok (BitsAndBytesConfig kw0, ∅)
    ∧ infer_quantisation_config all_available {| model_id := "databricks/dolly-v2-3b" |}
        "int8" {[ "llm_int8_threshhold" := PyFloat 5.0 ]} = Ok (BitsAndBytesConfig kw5, ∅)
    ∧ kwarg (BitsAndBytesConfig kw0) "load_in_8bit" = Some (PyBool true)
    ∧ kwarg (BitsAndBytesConfig kw0) "llm_int8_threshhold" = Some (PyFloat 6.0)
    ∧ kwarg (BitsAndBytesConfig kw5) "llm_int8_threshhold" = Some (PyFloat 5.0)
    ∧ kwarg (BitsAndBytesConfig kw5) "llm_int8_threshold" = None
    ∧ library_threshold (BitsAndBytesConfig kw5) = library_threshold (BitsAndBytesConfig kw0)
    ∧ library_threshold (BitsAndBytesConfig kw5) = PyFloat 6.0.
Proof.
  apply (int8_threshold_override_not_reflected all_available
           {| model_id := "databricks/dolly-v2-3b" |} library_threshold).
  - reflexivity.
  - intros c1 c2 H. unfold library_threshold. by rewrite H.
Defined.

(** On every success path the leftover dictionary is [attrs] after the
    deletions of the shared keys and of the keys of the branch taken. *)
Lemma infer_success_leftover
    (env : Env) (self : LLM) (quantise : string) (attrs : gmap string PyVal) :
  quantise ∈ accepted_modes →
  backends_available env quantise = true →
  ∃ cfg, infer_quantisation_config env self quantise attrs
         = Ok (cfg, foldr delete attrs (reverse (consumed_keys quantise)))
         ∧ overload_class quantise = Some (class_of cfg).
Proof.
  unfold accepted_modes, backends_available. intros Hq Hav.
  destruct env as [bnb gptq optimum awq cuda]; cbn in Hav.
  repeat (apply elem_of_cons in Hq as [-> | Hq]); [| | | | by apply elem_of_nil in Hq];
    cbn in Hav; run_pops.
  - destruct bnb; [| discriminate]. eexists. split; reflexivity.
  - destruct bnb; [| discriminate]. eexists. split; reflexivity.
  - destruct bnb, gptq, optimum; try discriminate. eexists. split; reflexivity.
  - destruct bnb, awq; try discriminate. eexists. split; reflexivity.
Qed.

(** C2, as the code has it.  For an accepted mode whose backends can be
    imported, the call returns a configuration of the class declared for the
    mode together with [attrs] minus the keys consumed: the nine int8, int4 and gptq/awq keys popped before the
    mode is looked at, whatever the mode, and the keys popped by the branch
    taken (thirteen for gptq, [zero_point] for awq, none for int8 and int4).
    Every other override comes back unchanged. *)
Theorem leftover_is_attrs_minus_consumed
    (env : Env) (self : LLM) (quantise : string) (attrs : gmap string PyVal) :
  quantise ∈ accepted_modes →
  backends_available env quantise = true →
  ∃ cfg rest,
    infer_quantisation_config env self quantise attrs = Ok (cfg, rest)
    ∧ overload_class quantise = Some (class_of cfg)
    ∧ ∀ k, rest !! k
           = if bool_decide (k ∈ consumed_keys quantise) then None else attrs !! k.
Proof.
  intros Hq Hav.
  destruct (infer_success_leftover env self quantise attrs Hq Hav) as (cfg & Hcfg & Hcls).
  exists cfg, (foldr delete attrs (reverse (consumed_keys quantise))).
  split; [exact Hcfg |]. split; [exact Hcls |].
  intros k. rewrite lookup_after_deletes.
  apply (f_equal (λ b : bool, if b then None else attrs !! k)).
  apply bool_decide_ext, elem_of_reverse.
Qed.

Lemma leftover_is_attrs_minus_consumed_witness :
  ∃ cfg rest,
    infer_quantisation_config all_available {| model_id := "databricks/dolly-v2-3b" |}
      "gptq" {[ "llm_int8_threshhold" := PyFloat 5.0; "trust_remote_code" := PyBool true ]}
      = Ok (cfg, rest)
    ∧ overload_class "gptq" = Some (class_of cfg)
    ∧ ∀ k, rest !! k
           = if bool_decide (k ∈ consumed_keys "gptq") then None
             else ({[ "llm_int8_threshhold" := PyFloat 5.0;
                      "trust_remote_code" := PyBool true ]} : gmap string PyVal) !! k.
Proof.
  apply (leftover_is_attrs_minus_consumed all_available
           {| model_id := "databricks/dolly-v2-3b" |} "gptq").
  - unfold accepted_modes. set_solver.
  - reflexivity.
Defined.

(** C2 fails as stated: an override of another branch does not come back.
    With every backend importable, [llm_int8_threshhold] given with mode gptq
    and [bits] given with mode int8 are both popped, and the leftover
    dictionary is empty. *)
Lemma other_branch_overrides_are_consumed :
  (∃ cfg rest,
     infer_quantisation_config all_available {| model_id := "databricks/dolly-v2-3b" |}
       "gptq" {[ "llm_int8_threshhold" := PyFloat 5.0 ]} = Ok (cfg, rest)
     ∧ rest !! "llm_int8_threshhold" = None)
  ∧
  (∃ cfg rest,
     infer_quantisation_config all_available {| model_id := "databricks/dolly-v2-3b" |}
       "int8" {[ "bits" := PyInt 8 ]} = Ok (cfg, rest)
     ∧ rest !! "bits" = None).
Proof.
  split; eexists _, _; (split; [vm_compute; reflexivity | vm_compute; reflexivity]).
Qed.

(** ** The Dolly-v2 configuration *)

(** The template is the intro sentence, the instruction marker, the
    [{instruction}] field and the response marker, one per line. *)
Lemma default_prompt_template_eq :
  template_format = Ok DEFAULT_PROMPT_TEMPLATE
  ∧ DEFAULT_PROMPT_TEMPLATE
    = INTRO_BLURB ++ nl ++ INSTRUCTION_KEY ++ nl ++ "{instruction}" ++ nl
        ++ RESPONSE_KEY ++ nl.
Proof. split; reflexivity. Qed.

Lemma default_template_filled (instruction : string) :
  str_format DEFAULT_PROMPT_TEMPLATE [("instruction", instruction)]
  = Ok (INTRO_BLURB ++ nl ++ INSTRUCTION_KEY ++ nl ++ instruction ++ nl
          ++ RESPONSE_KEY ++ nl).
Proof. reflexivity. Qed.

(** C3, as the code has it.  Whenever the prompt is produced, the
    generation-parameter mapping holds each of max_new_tokens, top_k, top_p
    and temperature, with the value the caller gave and [None] when the
    caller gave none; the keys are never absent.  Every other keyword
    override is in the mapping unchanged, and the mapping holds nothing
    else.  The third component is the empty dictionary. *)
Theorem sanitize_parameters_mapping
    (pp : string → string → bool → gmap string PyVal → Result string)
    (prompt : string) (max_new_tokens temperature top_k top_p : PyVal)
    (use_default_prompt_template : bool) (attrs : gmap string PyVal) (p : string) :
  kwargs_ok attrs →
  pp prompt DEFAULT_PROMPT_TEMPLATE use_default_prompt_template attrs = Ok p →
  ∃ gen,
    sanitize_parameters pp prompt max_new_tokens temperature top_k top_p
      use_default_prompt_template attrs = Ok (p, gen, ∅)
    ∧ gen !! "max_new_tokens" = Some max_new_tokens
    ∧ gen !! "top_k" = Some top_k
    ∧ gen !! "top_p" = Some top_p
    ∧ gen !! "temperature" = Some temperature
    ∧ (∀ k v, attrs !! k = Some v → gen !! k = Some v)
    ∧ (∀ k, k ∉ ["max_new_tokens"; "top_k"; "top_p"; "temperature"] →
            gen !! k = attrs !! k).
Proof.
  intros Hok Hp. unfold sanitize_parameters. rewrite Hp. cbn.
  eexists. split; [reflexivity |].
  unfold kwargs_ok, named_parameters in Hok.
  repeat (apply Forall_cons in Hok as [? Hok]).
  unfold dict_update.
  repeat split.
  - rewrite lookup_union_r by done. by simplify_map_eq.
  - rewrite lookup_union_r by done. by simplify_map_eq.
  - rewrite lookup_union_r by done. by simplify_map_eq.
  - rewrite lookup_union_r by done. by simplify_map_eq.
  - intros k v Hk. by apply lookup_union_Some_l.
  - intros k Hk. rewrite lookup_union.
    assert (k ≠ "max_new_tokens" ∧ k ≠ "top_k" ∧ k ≠ "top_p" ∧ k ≠ "temperature")
      as (? & ? & ? & ?) by (repeat split; intros ->; apply Hk; set_solver).
    simplify_map_eq. by destruct (attrs !! k).
Qed.

Lemma sanitize_parameters_mapping_witness :
  ∃ gen,
    sanitize_parameters process_prompt "Say hello." (PyInt 64) PyNone PyNone PyNone
      false {[ "num_beams" := PyInt 2 ]} = Ok ("Say hello.", gen, ∅)
    ∧ gen !! "max_new_tokens" = Some (PyInt 64)
    ∧ gen !! "top_k" = Some PyNone
    ∧ gen !! "top_p" = Some PyNone
    ∧ gen !! "temperature" = Some PyNone
    ∧ (∀ k v, ({[ "num_beams" := PyInt 2 ]} : gmap string PyVal) !! k = Some v →
              gen !! k = Some v)
    ∧ (∀ k, k ∉ ["max_new_tokens"; "top_k"; "top_p"; "temperature"] →
            gen !! k = ({[ "num_beams" := PyInt 2 ]} : gmap string PyVal) !! k).
Proof.
  apply (sanitize_parameters_mapping process_prompt "Say hello." (PyInt 64)
           PyNone PyNone PyNone false {[ "num_beams" := PyInt 2 ]} "Say hello.").
  - unfold kwargs_ok, named_parameters. repeat constructor.
  - reflexivity.
Defined.

(** C3 fails as stated: a parameter the caller leaves out is not absent from
    the mapping.  With no override at all, each of the four keys is present
    and holds [None]. *)
Lemma unset_parameters_are_present :
  ∃ p gen extra,
    sanitize_parameters process_prompt "Say hello." PyNone PyNone PyNone PyNone true ∅
      = Ok (p, gen, extra)
    ∧ gen !! "max_new_tokens" = Some PyNone
    ∧ gen !! "top_k" = Some PyNone
    ∧ gen !! "top_p" = Some PyNone
    ∧ gen !! "temperature" = Some PyNone.
Proof. eexists _, _, _. split; [reflexivity | by vm_compute]. Qed.

(** C7, as the template has it.  With the default template requested, the
    prompt is the intro sentence, a line break, the instruction marker, a line
    break, the instruction, a line break, the response marker and a line
    break: the instruction is separated from each marker by exactly one line
    break. *)
Theorem templated_prompt_shape
    (instruction : string) (max_new_tokens temperature top_k top_p : PyVal)
    (attrs : gmap string PyVal) :
  ∃ gen extra,
    sanitize_parameters process_prompt instruction max_new_tokens temperature
      top_k top_p true attrs
    = Ok (INTRO_BLURB ++ nl ++ INSTRUCTION_KEY ++ nl ++ instruction ++ nl
            ++ RESPONSE_KEY ++ nl, gen, extra).
Proof.
  unfold sanitize_parameters, process_prompt.
  rewrite default_template_filled. cbn. by eexists _, _.
Qed.

(** C7 fails as stated: for the instruction [hi] the prompt has no occurrence
    of the instruction marker directly followed by the instruction, and none
    of the instruction directly followed by the response marker. *)
Lemma markers_not_adjacent_to_instruction :
  ∃ p gen extra,
    sanitize_parameters process_prompt "hi" PyNone PyNone PyNone PyNone true ∅
      = Ok (p, gen, extra)
    ∧ ¬ (∃ pre post, p = pre ++ (INSTRUCTION_KEY ++ "hi") ++ post)
    ∧ ¬ (∃ pre post, p = pre ++ ("hi" ++ RESPONSE_KEY) ++ post).
Proof.
  eexists _, _, _. split; [reflexivity |].
  split; intros H; apply contains_spec in H; vm_compute in H; discriminate.
Qed.

(** C8.  When the tokenizer encodes the marker to more than one id,
    [get_special_token_id] raises [ValueError] with a message that quotes the
    marker and prints the list of ids; when it encodes the marker to exactly
    one id, that id is returned. *)
Theorem get_special_token_id_contract (tokenizer : Tokenizer) (key : string) :
  ((1 < length (encode tokenizer key))%nat →
   get_special_token_id tokenizer key
   = Raise (ValueError ("Expected only a single token for '" ++ key
                          ++ "' but found " ++ repr_int_list (encode tokenizer key))))
  ∧ (∀ i, encode tokenizer key = [i] → get_special_token_id tokenizer key = Ok i).
Proof.
  unfold get_special_token_id. split.
  - intros Hlen. apply Nat.ltb_lt in Hlen. by rewrite Hlen.
  - intros i Hi. by rewrite Hi.
Qed.

Lemma get_special_token_id_contract_witness :
  get_special_token_id sample_tokenizer "### Begin"
  = Raise (ValueError "Expected only a single token for '### Begin' but found [21, 7]")
  ∧ get_special_token_id sample_tokenizer "### End" = Ok 50277.
Proof.
  split.
  - apply (proj1 (get_special_token_id_contract sample_tokenizer "### Begin")).
    cbn. lia.
  - apply (proj2 (get_special_token_id_contract sample_tokenizer "### End")).
    reflexivity.
Defined.

(** C9.  [postprocess_generate] does not look at the prompt: two calls that
    differ in the prompt only (and in the ignored keyword arguments) agree,
    and the common outcome is the [generated_text] entry of the first element
    of the result, an [IndexError] when the result is empty and a [KeyError]
    when the first element has no such entry. *)
Theorem postprocess_generate_ignores_prompt
    (p1 p2 : string) (r : list (gmap string PyVal)) (kw1 kw2 : gmap string PyVal) :
  postprocess_generate p1 r kw1 = postprocess_generate p2 r kw2
  ∧ postprocess_generate p1 r kw1
    = match r with
      | [] => Raise (IndexError "list index out of range")
      | d :: _ =>
          match d !! "generated_text" with
          | Some text => Ok text
          | None => Raise (KeyError "generated_text")
          end
      end.
Proof. split; [reflexivity |]. by destruct r. Qed.

(** C10.  The guard of [get_special_token_id] rejects only encodings of two
    or more ids.  An empty encoding passes the guard and the access to the
    first element raises [IndexError], not the [ValueError] of the guard; a
    non-empty encoding never raises [IndexError]. *)
Theorem get_special_token_id_empty_encoding (tokenizer : Tokenizer) (key : string) :
  (encode tokenizer key = [] →
   get_special_token_id tokenizer key = Raise (IndexError "list index out of range"))
  ∧ (encode tokenizer key ≠ [] →
     ∀ msg, get_special_token_id tokenizer key ≠ Raise (IndexError msg)).
Proof.
  unfold get_special_token_id. split.
  - intros Hnil. by rewrite Hnil.
  - intros Hne msg. destruct (encode tokenizer key) as [|i [|j ids]]; [done | done | done].
Qed.

Lemma get_special_token_id_empty_encoding_witness :
  get_special_token_id silent_tokenizer "### End"
  = Raise (IndexError "list index out of range")
  ∧ ∀ msg, get_special_token_id sample_tokenizer "### End" ≠ Raise (IndexError msg).
Proof.
  split.
  - apply (proj1 (get_special_token_id_empty_encoding silent_tokenizer "### End")).
    reflexivity.
  - apply (proj2 (get_special_token_id_empty_encoding sample_tokenizer "### End")).
    discriminate.
Defined.


(** ** The selector as a function of the caller's dictionary *)

(** The pops take pairwise different keys, so each value popped is the
    caller's entry or the default, and a successful call returns the
    constructor call of the branch together with the caller's dictionary
    minus the consumed keys. *)
Lemma infer_success_value
    (env : Env) (self : LLM) (quantise : string) (attrs : gmap string PyVal) :
  quantise ∈ accepted_modes →
  backends_available env quantise = true →
  infer_quantisation_config env self quantise attrs
  = Ok (branch_config env self quantise attrs,
        foldr delete attrs (reverse (consumed_keys quantise))).
Proof.
  unfold accepted_modes, backends_available. intros Hq Hav.
  destruct env as [bnb gptq optimum awq cuda]; cbn in Hav.
  repeat (apply elem_of_cons in Hq as [-> | Hq]); [| | | | by apply elem_of_nil in Hq];
    cbn in Hav; run_pops; unfold branch_config, int8_kwargs, int4_kwargs,
      gptq_kwargs, awq_kwargs, arg; cbn.
  - destruct bnb; [| discriminate]. cbn.
    rewrite !lookup_delete_ne by done. reflexivity.
  - destruct bnb; [| discriminate]. cbn.
    rewrite !lookup_delete_ne by done. reflexivity.
  - destruct bnb, gptq, optimum; try discriminate. cbn.
    rewrite !lookup_delete_ne by done. by destruct cuda.
  - destruct bnb, awq; try discriminate. cbn.
    rewrite !lookup_delete_ne by done. reflexivity.
Qed.

(** Outside the success conditions the call raises at one of its own four
    [raise] statements, before any constructor is called, and the exception
    is the same for every [self] and every dictionary. *)
Lemma infer_raise_cases (env : Env) (quantise : string) :
  ¬ (quantise ∈ accepted_modes ∧ backends_available env quantise = true) →
  ∃ e, e ∈ [RuntimeError bitsandbytes_message; MissingDependencyError gptq_message;
            MissingDependencyError awq_message; ValueError (unknown_message quantise)]
       ∧ ∀ (self : LLM) (attrs : gmap string PyVal),
           infer_quantisation_config env self quantise attrs = Raise e.
Proof.
  intros Hnot. destruct env as [bnb gptq optimum awq cuda].
  destruct bnb;
    [| exists (RuntimeError bitsandbytes_message);
       split; [set_solver | intros; run_pops; reflexivity]].
  destruct (String.eqb quantise "int8") eqn:E8.
  { exfalso. apply Hnot. apply String.eqb_eq in E8 as ->.
    split; [unfold accepted_modes; set_solver | reflexivity]. }
  destruct (String.eqb quantise "int4") eqn:E4.
  { exfalso. apply Hnot. apply String.eqb_eq in E4 as ->.
    split; [unfold accepted_modes; set_solver | reflexivity]. }
  destruct (String.eqb quantise "gptq") eqn:Eg.
  { apply String.eqb_eq in Eg as ->.
    destruct (gptq && optimum) eqn:Edeps.
    - exfalso. apply Hnot. split; [unfold accepted_modes; set_solver | exact Edeps].
    - exists (MissingDependencyError gptq_message). split; [set_solver |].
      intros. run_pops. by destruct gptq, optimum. }
  destruct (String.eqb quantise "awq") eqn:Ea.
  { apply String.eqb_eq in Ea as ->. destruct awq.
    - exfalso. apply Hnot. split; [unfold accepted_modes; set_solver | reflexivity].
    - exists (MissingDependencyError awq_message). split; [set_solver |].
      intros. run_pops. reflexivity. }
  exists (ValueError (unknown_message quantise)). split; [set_solver |].
  intros. run_pops. rewrite E8, E4, Eg, Ea. reflexivity.
Qed.

(** A successful call pins down the mode, the backends, the configuration and
    the leftover dictionary. *)
Lemma infer_ok_inv
    (env : Env) (self : LLM) (quantise : string) (attrs : gmap string PyVal)
    (cfg : QuantisationConfig) (rest : gmap string PyVal) :
  infer_quantisation_config env self quantise attrs = Ok (cfg, rest) →
  quantise ∈ accepted_modes
  ∧ backends_available env quantise = true
  ∧ cfg = branch_config env self quantise attrs
  ∧ rest = foldr delete attrs (reverse (consumed_keys quantise)).
Proof.
  intros Hok.
  destruct (decide (quantise ∈ accepted_modes ∧ backends_available env quantise = true))
    as [[Hq Hav] | Hnot].
  - rewrite (infer_success_value env self quantise attrs Hq Hav) in Hok.
    injection Hok as <- <-. done.
  - destruct (infer_raise_cases env quantise Hnot) as (e & _ & He).
    rewrite He in Hok. discriminate.
Qed.

(** Deleting the consumed keys twice is deleting them once, commutes with
    the insertion of any other key, and leaves the empty dictionary empty. *)
Lemma deletes_idempotent (keys : list string) (d : gmap string PyVal) :
  foldr delete (foldr delete d keys) keys = foldr delete d keys.
Proof.
  apply map_eq. intros k. rewrite !lookup_after_deletes.
  by case_bool_decide.
Qed.

Lemma deletes_insert (keys : list string) (d : gmap string PyVal) (k : string) (v : PyVal) :
  k ∉ keys → foldr delete (<[k := v]> d) keys = <[k := v]> (foldr delete d keys).
Proof.
  intros Hk. apply map_eq. intros j.
  rewrite lookup_after_deletes.
  destruct (decide (j = k)) as [-> | Hne].
  - rewrite !lookup_insert_eq. by rewrite bool_decide_eq_false_2.
  - rewrite !lookup_insert_ne by done. by rewrite lookup_after_deletes.
Qed.

Lemma deletes_empty (keys : list string) :
  foldr delete (∅ : gmap string PyVal) keys = ∅.
Proof.
  apply map_eq. intros k. rewrite lookup_after_deletes, lookup_empty.
  by case_bool_decide.
Qed.

(** The configuration reads the caller's dictionary at consumed keys only. *)
Ltac consumed_key := apply (bool_decide_unpack _); vm_compute; exact I.

Lemma branch_config_agree
    (env : Env) (self : LLM) (quantise : string) (a1 a2 : gmap string PyVal) :
  quantise ∈ accepted_modes →
  agree_on (consumed_keys quantise) a1 a2 →
  branch_config env self quantise a1 = branch_config env self quantise a2.
Proof.
  unfold accepted_modes, agree_on. intros Hq Hag.
  repeat (apply elem_of_cons in Hq as [-> | Hq]); [| | | | by apply elem_of_nil in Hq];
    unfold branch_config, int8_kwargs, int4_kwargs, gptq_kwargs, awq_kwargs, arg; cbn;
    repeat match goal with
           | |- context [lookup ?k a1] => rewrite (Hag k) by consumed_key
           end;
    reflexivity.
Qed.

Lemma success_conditions (env : Env) (quantise : string) :
  quantise ∈ accepted_modes ∧ backends_available env quantise = true
  ↔ is_bitsandbytes_available env = true
    ∧ (quantise = "int8" ∨ quantise = "int4"
       ∨ (quantise = "gptq" ∧ is_autogptq_available env = true
          ∧ is_optimum_supports_gptq env = true)
       ∨ (quantise = "awq" ∧ is_autoawq_available env = true)).
Proof.
  unfold accepted_modes, backends_available. split.
  - intros [Hq Hav]. apply andb_true_iff in Hav as [Hbnb Hav]. split; [done |].
    repeat (apply elem_of_cons in Hq as [-> | Hq]); [| | | | by apply elem_of_nil in Hq];
      cbn in Hav.
    + by left.
    + right. by left.
    + right. right. left. by apply andb_true_iff in Hav as [? ?].
    + right. right. right. done.
  - intros [Hbnb [-> | [-> | [(-> & Hg & Ho) | (-> & Ha)]]]]; rewrite Hbnb; cbn;
      (split; [set_solver |]); try done.
    by rewrite Hg, Ho.
Qed.

(** X1.  The call returns a configuration only if bitsandbytes can be
    imported and the mode is int8 or int4, or gptq with both auto-gptq and
    the GPTQ support of optimum importable, or awq with auto-awq importable:
    every other combination is stopped by one of the [raise] statements. *)
Theorem infer_success_requires
    (env : Env) (self : LLM) (quantise : string) (attrs : gmap string PyVal)
    (cfg : QuantisationConfig) (rest : gmap string PyVal) :
  infer_quantisation_config env self quantise attrs = Ok (cfg, rest) →
  is_bitsandbytes_available env = true
  ∧ (quantise = "int8" ∨ quantise = "int4"
     ∨ (quantise = "gptq" ∧ is_autogptq_available env = true
        ∧ is_optimum_supports_gptq env = true)
     ∨ (quantise = "awq" ∧ is_autoawq_available env = true)).
Proof.
  intros Hok. apply success_conditions.
  by destruct (infer_ok_inv _ _ _ _ _ _ Hok) as (? & ? & _).
Qed.

Lemma infer_success_requires_witness :
  is_bitsandbytes_available all_available = true
  ∧ ("awq" = "int8" ∨ "awq" = "int4"
     ∨ ("awq" = "gptq" ∧ is_autogptq_available all_available = true
        ∧ is_optimum_supports_gptq all_available = true)
     ∨ ("awq" = "awq" ∧ is_autoawq_available all_available = true)).
Proof.
  apply (infer_success_requires all_available {| model_id := "databricks/dolly-v2-3b" |}
           "awq" {[ "bits" := PyInt 8 ]}
           (AwqConfig (awq_kwargs {[ "bits" := PyInt 8 ]})) ∅).
  vm_compute. reflexivity.
Defined.

(** X2.  When those conditions fail, the call raises at one of its own four
    [raise] statements, before any constructor is called, and the exception
    depends on the environment and the mode only: it is the same for every
    [self] and every dictionary of overrides. *)
Theorem precondition_failure_ignores_overrides (env : Env) (quantise : string) :
  ¬ (is_bitsandbytes_available env = true
     ∧ (quantise = "int8" ∨ quantise = "int4"
        ∨ (quantise = "gptq" ∧ is_autogptq_available env = true
           ∧ is_optimum_supports_gptq env = true)
        ∨ (quantise = "awq" ∧ is_autoawq_available env = true))) →
  ∃ e, e ∈ [RuntimeError bitsandbytes_message; MissingDependencyError gptq_message;
            MissingDependencyError awq_message; ValueError (unknown_message quantise)]
       ∧ ∀ (self : LLM) (attrs : gmap string PyVal),
           infer_quantisation_config env self quantise attrs = Raise e.
Proof.
  intros Hnot. apply infer_raise_cases.
  intros Hsucc. apply Hnot. by apply success_conditions.
Qed.

Lemma precondition_failure_ignores_overrides_witness :
  ∃ e, e ∈ [RuntimeError bitsandbytes_message; MissingDependencyError gptq_message;
            MissingDependencyError awq_message; ValueError (unknown_message "awq")]
       ∧ ∀ (self : LLM) (attrs : gmap string PyVal),
           infer_quantisation_config
             {| is_bitsandbytes_available := true; is_autogptq_available := true;
                is_optimum_supports_gptq := true; is_autoawq_available := false;
                cuda_is_available := true |} self "awq" attrs = Raise e.
Proof.
  apply (precondition_failure_ignores_overrides
           {| is_bitsandbytes_available := true; is_autogptq_available := true;
              is_optimum_supports_gptq := true; is_autoawq_available := false;
              cuda_is_available := true |} "awq").
  cbn. intros [_ [H | [H | [[H _] | [_ H]]]]]; discriminate.
Defined.

(** X3.  With bitsandbytes importable, mode awq raises
    [MissingDependencyError] when auto-awq cannot be imported, whatever the
    overrides, and the message names the package. *)
Theorem awq_missing_backend_raises
    (env : Env) (self : LLM) (attrs : gmap string PyVal) :
  is_bitsandbytes_available env = true →
  is_autoawq_available env = false →
  infer_quantisation_config env self "awq" attrs
    = Raise (MissingDependencyError awq_message)
  ∧ contains "'auto-awq'" awq_message = true.
Proof.
  intros Hbnb Hawq. split; [| by vm_compute].
  run_pops. by rewrite Hbnb, Hawq.
Qed.

Lemma awq_missing_backend_raises_witness :
  infer_quantisation_config
    {| is_bitsandbytes_available := true; is_autogptq_available := false;
       is_optimum_supports_gptq := false; is_autoawq_available := false;
       cuda_is_available := false |}
    {| model_id := "databricks/dolly-v2-3b" |} "awq" {[ "zero_point" := PyBool false ]}
    = Raise (MissingDependencyError awq_message)
  ∧ contains "'auto-awq'" awq_message = true.
Proof.
  apply (awq_missing_backend_raises
           {| is_bitsandbytes_available := true; is_autogptq_available := false;
              is_optimum_supports_gptq := false; is_autoawq_available := false;
              cuda_is_available := false |});
    reflexivity.
Defined.

(** X4.  With bitsandbytes importable, mode int8 builds [BitsAndBytesConfig]
    from [load_in_8bit=True] and four values, each the caller's override
    when given and the default otherwise (6.0, [False], [None], [False]); it
    does not need the gptq or awq backends. *)
Theorem int8_config_from_overrides
    (env : Env) (self : LLM) (attrs : gmap string PyVal) :
  is_bitsandbytes_available env = true →
  ∃ rest, infer_quantisation_config env self "int8" attrs
          = Ok (BitsAndBytesConfig (int8_kwargs attrs), rest).
Proof.
  intros Hbnb. eexists.
  apply (infer_success_value env self "int8" attrs).
  - unfold accepted_modes. set_solver.
  - unfold backends_available. by rewrite Hbnb.
Qed.

Lemma int8_config_from_overrides_witness :
  ∃ rest,
    infer_quantisation_config
      {| is_bitsandbytes_available := true; is_autogptq_available := false;
         is_optimum_supports_gptq := false; is_autoawq_available := false;
         cuda_is_available := false |}
      {| model_id := "databricks/dolly-v2-3b" |} "int8"
      {[ "llm_int8_skip_modules" := PyList [PyStr "lm_head"] ]}
    = Ok (BitsAndBytesConfig
            (int8_kwargs {[ "llm_int8_skip_modules" := PyList [PyStr "lm_head"] ]}),
          rest).
Proof.
  apply (int8_config_from_overrides
           {| is_bitsandbytes_available := true; is_autogptq_available := false;
              is_optimum_supports_gptq := false; is_autoawq_available := false;
              cuda_is_available := false |}).
  reflexivity.
Defined.

(** X5.  With bitsandbytes importable, mode int4 builds [BitsAndBytesConfig]
    from [load_in_4bit=True], the compute dtype (default [torch.bfloat16]),
    the quantisation type (default nf4) and the double-quantisation flag
    (default [True]), each overridable; no int8 keyword is passed. *)
Theorem int4_config_from_overrides
    (env : Env) (self : LLM) (attrs : gmap string PyVal) :
  is_bitsandbytes_available env = true →
  ∃ rest, infer_quantisation_config env self "int4" attrs
          = Ok (BitsAndBytesConfig (int4_kwargs attrs), rest)
          ∧ kwarg (BitsAndBytesConfig (int4_kwargs attrs)) "load_in_8bit" = None
          ∧ kwarg (BitsAndBytesConfig (int4_kwargs attrs)) "llm_int8_threshhold" = None.
Proof.
  intros Hbnb. eexists. split; [| split; reflexivity].
  apply (infer_success_value env self "int4" attrs).
  - unfold accepted_modes. set_solver.
  - unfold backends_available. by rewrite Hbnb.
Qed.

Lemma int4_config_from_overrides_witness :
  ∃ rest,
    infer_quantisation_config all_available {| model_id := "databricks/dolly-v2-3b" |}
      "int4" {[ "bnb_4bit_quant_type" := PyStr "fp4" ]}
    = Ok (BitsAndBytesConfig (int4_kwargs {[ "bnb_4bit_quant_type" := PyStr "fp4" ]}), rest)
    ∧ kwarg (BitsAndBytesConfig (int4_kwargs {[ "bnb_4bit_quant_type" := PyStr "fp4" ]}))
        "load_in_8bit" = None
    ∧ kwarg (BitsAndBytesConfig (int4_kwargs {[ "bnb_4bit_quant_type" := PyStr "fp4" ]}))
        "llm_int8_threshhold" = None.
Proof.
  apply (int4_config_from_overrides all_available). reflexivity.
Defined.

(** X6.  With bitsandbytes, auto-gptq and the GPTQ support of optimum
    importable, mode gptq builds [GPTQConfig] from fifteen values, each the
    caller's override when given and the default otherwise; the default
    calibration tokenizer is the model id of [self] and the default
    [use_cuda_fp16] is whether CUDA is available. *)
Theorem gptq_config_from_overrides
    (env : Env) (self : LLM) (attrs : gmap string PyVal) :
  is_bitsandbytes_available env = true →
  is_autogptq_available env = true →
  is_optimum_supports_gptq env = true →
  ∃ rest, infer_quantisation_config env self "gptq" attrs
          = Ok (GPTQConfig (gptq_kwargs env self attrs), rest).
Proof.
  intros Hbnb Hg Ho. eexists.
  apply (infer_success_value env self "gptq" attrs).
  - unfold accepted_modes. set_solver.
  - unfold backends_available. by rewrite Hbnb, Hg, Ho.
Qed.

Lemma gptq_config_from_overrides_witness :
  ∃ rest,
    infer_quantisation_config all_available {| model_id := "databricks/dolly-v2-3b" |}
      "gptq" {[ "bits" := PyInt 8; "dataset" := PyStr "wikitext2" ]}
    = Ok (GPTQConfig
            (gptq_kwargs all_available {| model_id := "databricks/dolly-v2-3b" |}
               {[ "bits" := PyInt 8; "dataset" := PyStr "wikitext2" ]}),
          rest).
Proof.
  apply (gptq_config_from_overrides all_available); reflexivity.
Defined.

(** X7.  With bitsandbytes and auto-awq importable, mode awq builds
    [AwqConfig] from the bit width (default 4), the group size (default 128)
    and the zero-point flag (default [True]), each overridable. *)
Theorem awq_config_from_overrides
    (env : Env) (self : LLM) (attrs : gmap string PyVal) :
  is_bitsandbytes_available env = true →
  is_autoawq_available env = true →
  ∃ rest, infer_quantisation_config env self "awq" attrs
          = Ok (AwqConfig (awq_kwargs attrs), rest).
Proof.
  intros Hbnb Hawq. eexists.
  apply (infer_success_value env self "awq" attrs).
  - unfold accepted_modes. set_solver.
  - unfold backends_available. by rewrite Hbnb, Hawq.
Qed.

Lemma awq_config_from_overrides_witness :
  ∃ rest,
    infer_quantisation_config all_available {| model_id := "databricks/dolly-v2-3b" |}
      "awq" {[ "group_size" := PyInt 64 ]}
    = Ok (AwqConfig (awq_kwargs {[ "group_size" := PyInt 64 ]}), rest).
Proof.
  apply (awq_config_from_overrides all_available); reflexivity.
Defined.

(** X8.  The configuration depends on the overrides under the consumed keys
    only: two dictionaries that agree on the keys the mode consumes give the
    same configuration. *)
Theorem config_reads_consumed_keys_only
    (env : Env) (self : LLM) (quantise : string) (a1 a2 : gmap string PyVal)
    (cfg : QuantisationConfig) (rest1 : gmap string PyVal) :
  agree_on (consumed_keys quantise) a1 a2 →
  infer_quantisation_config env self quantise a1 = Ok (cfg, rest1) →
  ∃ rest2, infer_quantisation_config env self quantise a2 = Ok (cfg, rest2).
Proof.
  intros Hag Hok.
  destruct (infer_ok_inv _ _ _ _ _ _ Hok) as (Hq & Hav & -> & _).
  eexists. rewrite (infer_success_value env self quantise a2 Hq Hav).
  by rewrite (branch_config_agree env self quantise a1 a2 Hq Hag).
Qed.

Lemma config_reads_consumed_keys_only_witness :
  ∃ rest2,
    infer_quantisation_config all_available {| model_id := "databricks/dolly-v2-3b" |}
      "awq" {[ "bits" := PyInt 8; "device_map" := PyStr "auto" ]}
    = Ok (AwqConfig [("bits", PyInt 8); ("group_size", PyInt 128);
                     ("zero_point", PyBool true)], rest2).
Proof.
  apply (config_reads_consumed_keys_only all_available
           {| model_id := "databricks/dolly-v2-3b" |} "awq"
           {[ "bits" := PyInt 8 ]}
           {[ "bits" := PyInt 8; "device_map" := PyStr "auto" ]}
           _ ∅).
  - intros k Hk. unfold consumed_keys in Hk. cbn in Hk.
    repeat (apply elem_of_cons in Hk as [-> | Hk]); try reflexivity.
    by apply elem_of_nil in Hk.
  - vm_compute. reflexivity.
Defined.

(** X9.  An override under a key the mode does not consume passes through:
    adding it to the caller's dictionary leaves the configuration as it was
    and adds the same entry to the leftover dictionary. *)
Theorem unconsumed_override_passes_through
    (env : Env) (self : LLM) (quantise : string) (attrs : gmap string PyVal)
    (cfg : QuantisationConfig) (rest : gmap string PyVal) (k : string) (v : PyVal) :
  k ∉ consumed_keys quantise →
  infer_quantisation_config env self quantise attrs = Ok (cfg, rest) →
  infer_quantisation_config env self quantise (<[k := v]> attrs)
  = Ok (cfg, <[k := v]> rest).
Proof.
  intros Hk Hok.
  destruct (infer_ok_inv _ _ _ _ _ _ Hok) as (Hq & Hav & -> & ->).
  rewrite (infer_success_value env self quantise _ Hq Hav).
  rewrite deletes_insert by (by rewrite elem_of_reverse).
  rewrite (branch_config_agree env self quantise (<[k := v]> attrs) attrs Hq); [done |].
  intros j Hj. apply lookup_insert_ne. by intros ->.
Qed.

Lemma unconsumed_override_passes_through_witness :
  infer_quantisation_config all_available {| model_id := "databricks/dolly-v2-3b" |}
    "int4" (<["zero_point" := PyBool false]> {[ "bnb_4bit_quant_type" := PyStr "fp4" ]})
  = Ok (BitsAndBytesConfig (int4_kwargs {[ "bnb_4bit_quant_type" := PyStr "fp4" ]}),
        <["zero_point" := PyBool false]> ∅).
Proof.
  apply (unconsumed_override_passes_through all_available
           {| model_id := "databricks/dolly-v2-3b" |} "int4").
  - intros Hk. apply (bool_decide_pack _) in Hk. vm_compute in Hk. exact Hk.
  - vm_compute. reflexivity.
Defined.

(** X10.  The leftover dictionary is a part of the caller's dictionary (no
    entry is added or changed) and holds none of the consumed keys. *)
Theorem leftover_is_subdictionary
    (env : Env) (self : LLM) (quantise : string) (attrs : gmap string PyVal)
    (cfg : QuantisationConfig) (rest : gmap string PyVal) :
  infer_quantisation_config env self quantise attrs = Ok (cfg, rest) →
  rest ⊆ attrs ∧ ∀ k, k ∈ consumed_keys quantise → rest !! k = None.
Proof.
  intros Hok.
  destruct (infer_ok_inv _ _ _ _ _ _ Hok) as (_ & _ & _ & ->). split.
  - apply map_subseteq_spec. intros k v. rewrite lookup_after_deletes.
    by case_bool_decide.
  - intros k Hk. rewrite lookup_after_deletes.
    rewrite bool_decide_eq_true_2; [done | by apply elem_of_reverse].
Qed.

Lemma leftover_is_subdictionary_witness :
  ({[ "device_map" := PyStr "auto" ]} : gmap string PyVal)
    ⊆ {[ "bits" := PyInt 8; "device_map" := PyStr "auto" ]}
  ∧ ∀ k, k ∈ consumed_keys "awq" →
         ({[ "device_map" := PyStr "auto" ]} : gmap string PyVal) !! k = None.
Proof.
  apply (leftover_is_subdictionary all_available
           {| model_id := "databricks/dolly-v2-3b" |} "awq"
           {[ "bits" := PyInt 8; "device_map" := PyStr "auto" ]}
           (AwqConfig (awq_kwargs {[ "bits" := PyInt 8 ]}))).
  vm_compute. reflexivity.
Defined.

(** X11.  Calling the selector again on its own leftover changes nothing
    more: the leftover comes back as it is, and the configuration is the one
    of a call without any override. *)
Theorem rerun_on_leftover
    (env : Env) (self : LLM) (quantise : string) (attrs : gmap string PyVal)
    (cfg : QuantisationConfig) (rest : gmap string PyVal) :
  infer_quantisation_config env self quantise attrs = Ok (cfg, rest) →
  ∃ cfg0,
    infer_quantisation_config env self quantise rest = Ok (cfg0, rest)
    ∧ infer_quantisation_config env self quantise ∅ = Ok (cfg0, ∅).
Proof.
  intros Hok.
  destruct (infer_ok_inv _ _ _ _ _ _ Hok) as (Hq & Hav & _ & ->).
  exists (branch_config env self quantise ∅).
  rewrite !(infer_success_value env self quantise _ Hq Hav).
  rewrite deletes_idempotent, deletes_empty. split; [| done].
  rewrite (branch_config_agree env self quantise _ ∅ Hq); [done |].
  intros k Hk. rewrite lookup_after_deletes, lookup_empty.
  rewrite bool_decide_eq_true_2; [done | by apply elem_of_reverse].
Qed.

Lemma rerun_on_leftover_witness :
  ∃ cfg0,
    infer_quantisation_config all_available {| model_id := "databricks/dolly-v2-3b" |}
      "gptq" {[ "device_map" := PyStr "auto" ]}
    = Ok (cfg0, {[ "device_map" := PyStr "auto" ]})
    ∧ infer_quantisation_config all_available {| model_id := "databricks/dolly-v2-3b" |}
        "gptq" ∅ = Ok (cfg0, ∅).
Proof.
  apply (rerun_on_leftover all_available {| model_id := "databricks/dolly-v2-3b" |}
           "gptq" {[ "bits" := PyInt 8; "device_map" := PyStr "auto" ]}
           (GPTQConfig (gptq_kwargs all_available
                          {| model_id := "databricks/dolly-v2-3b" |}
                          {[ "bits" := PyInt 8 ]}))).
  vm_compute. reflexivity.
Defined.

(** X12.  The keys of the gptq and awq branches are popped by those branches
    only: an override under [tokenizer], [dataset], ... or [zero_point] comes
    back in the leftover dictionary whenever the mode taken is not the one
    that pops it. *)
Theorem other_branch_keys_survive
    (env : Env) (self : LLM) (quantise : string) (attrs : gmap string PyVal)
    (cfg : QuantisationConfig) (rest : gmap string PyVal) (k : string) :
  k ∈ (gptq_keys ++ ["zero_point"])%list →
  k ∉ branch_keys quantise →
  infer_quantisation_config env self quantise attrs = Ok (cfg, rest) →
  rest !! k = attrs !! k.
Proof.
  intros Hk Hbranch Hok.
  destruct (infer_ok_inv _ _ _ _ _ _ Hok) as (_ & _ & _ & ->).
  rewrite lookup_after_deletes, bool_decide_eq_false_2; [done |].
  rewrite elem_of_reverse. unfold consumed_keys. rewrite elem_of_app.
  intros [Hshared | Hb]; [| done].
  unfold gptq_keys in Hk. cbn in Hk.
  repeat (apply elem_of_cons in Hk as [-> | Hk]);
    try (apply (bool_decide_pack _) in Hshared; vm_compute in Hshared; exact Hshared).
  by apply elem_of_nil in Hk.
Qed.

Lemma other_branch_keys_survive_witness :
  ({[ "tokenizer" := PyStr "gpt2" ]} : gmap string PyVal) !! "tokenizer"
  = ({[ "tokenizer" := PyStr "gpt2"; "bits" := PyInt 8 ]} : gmap string PyVal) !! "tokenizer".
Proof.
  apply (other_branch_keys_survive all_available
           {| model_id := "databricks/dolly-v2-3b" |} "int8"
           {[ "tokenizer" := PyStr "gpt2"; "bits" := PyInt 8 ]}
           (BitsAndBytesConfig (int8_kwargs ∅))).
  - unfold gptq_keys. set_solver.
  - cbn. set_solver.
  - vm_compute. reflexivity.
Defined.

(** ** More on the Dolly-v2 configuration *)

Lemma string_length_append (a b : string) :
  String.length (a ++ b) = (String.length a + String.length b)%nat.
Proof.
  induction a as [|c a IH]; [done |].
  change (S (String.length (a ++ b)) = S (String.length a + String.length b)).
  by rewrite IH.
Qed.

Lemma string_append_inv_tail (a b s : string) :
  (a ++ s = b ++ s)%string → a = b.
Proof.
  revert b. induction a as [|c a IH]; intros [|c' b] H.
  - done.
  - apply (f_equal String.length) in H.
    rewrite !string_length_append in H. cbn in H. lia.
  - apply (f_equal String.length) in H.
    rewrite !string_length_append in H. cbn in H. lia.
  - change (String c (a ++ s) = String c' (b ++ s)) in H.
    injection H as -> H. f_equal. by apply IH.
Qed.

(** X13.  [get_special_token_id] returns an id exactly when the tokenizer
    encodes the key to that single id; every other encoding raises. *)
Theorem get_special_token_id_ok_iff (tokenizer : Tokenizer) (key : string) (i : Z) :
  get_special_token_id tokenizer key = Ok i ↔ encode tokenizer key = [i].
Proof.
  unfold get_special_token_id.
  destruct (encode tokenizer key) as [|j [|j' ids]]; cbn.
  - split; discriminate.
  - split; [by intros [= ->] | by intros [= ->]].
  - split; discriminate.
Qed.

(** X14.  [postprocess_generate] returns a value exactly when the generation
    result has a first element with a [generated_text] entry, and the value
    is that entry; further elements of the result and other entries of the
    first element play no part. *)
Theorem postprocess_generate_ok_iff
    (prompt : string) (r : list (gmap string PyVal)) (kw : gmap string PyVal)
    (text : PyVal) :
  postprocess_generate prompt r kw = Ok text
  ↔ ∃ d r', r = d :: r' ∧ d !! "generated_text" = Some text.
Proof.
  unfold postprocess_generate, getitem. split.
  - destruct r as [|d r']; cbn; [discriminate |].
    destruct (d !! "generated_text") as [v|] eqn:Hd; [| discriminate].
    intros [= ->]. by exists d, r'.
  - intros (d & r' & -> & Hd). cbn. by rewrite Hd.
Qed.

(** X15.  [sanitize_parameters] raises exactly when [process_prompt] raises,
    and then with the same exception: building the mapping cannot fail. *)
Theorem sanitize_parameters_raises_iff
    (pp : string → string → bool → gmap string PyVal → Result string)
    (prompt : string) (max_new_tokens temperature top_k top_p : PyVal)
    (use_default_prompt_template : bool) (attrs : gmap string PyVal) (e : PyExc) :
  sanitize_parameters pp prompt max_new_tokens temperature top_k top_p
    use_default_prompt_template attrs = Raise e
  ↔ pp prompt DEFAULT_PROMPT_TEMPLATE use_default_prompt_template attrs = Raise e.
Proof.
  unfold sanitize_parameters.
  destruct (pp prompt DEFAULT_PROMPT_TEMPLATE use_default_prompt_template attrs);
    cbn; split; congruence.
Qed.

(** X16.  The default template has one replacement field, [instruction]:
    formatting it uses the [instruction] keyword and no other, pastes the
    value in as it is (braces in it are not interpreted), and raises
    [KeyError] when the keyword is missing. *)
Theorem default_template_needs_instruction_only
    (kw : list (string * string)) :
  (∀ v, lookup_kw "instruction" kw = Some v →
        str_format DEFAULT_PROMPT_TEMPLATE kw
        = Ok (INTRO_BLURB ++ nl ++ INSTRUCTION_KEY ++ nl ++ v ++ nl
                ++ RESPONSE_KEY ++ nl))
  ∧ (lookup_kw "instruction" kw = None →
     str_format DEFAULT_PROMPT_TEMPLATE kw = Raise (KeyError "instruction")).
Proof.
  split; [intros v Hkw | intros Hkw];
    cbv [str_format DEFAULT_PROMPT_TEMPLATE format_from Ascii.eqb Bool.eqb
         spec_char orb andb String.append rmap];
    rewrite Hkw; reflexivity.
Qed.

Lemma default_template_needs_instruction_only_witness :
  str_format DEFAULT_PROMPT_TEMPLATE
    [("context", "ignored"); ("instruction", "Explain {braces}.")]
  = Ok (INTRO_BLURB ++ nl ++ INSTRUCTION_KEY ++ nl ++ "Explain {braces}." ++ nl
          ++ RESPONSE_KEY ++ nl)
  ∧ str_format DEFAULT_PROMPT_TEMPLATE [("context", "ignored")]
    = Raise (KeyError "instruction").
Proof.
  split.
  - apply (proj1 (default_template_needs_instruction_only
                    [("context", "ignored"); ("instruction", "Explain {braces}.")])).
    reflexivity.
  - apply (proj2 (default_template_needs_instruction_only [("context", "ignored")])).
    reflexivity.
Defined.

(** X17.  Filling the default template is injective: two instructions that
    give the same prompt are the same instruction. *)
Theorem default_template_injective (a b : string) :
  str_format DEFAULT_PROMPT_TEMPLATE [("instruction", a)]
  = str_format DEFAULT_PROMPT_TEMPLATE [("instruction", b)] →
  a = b.
Proof.
  rewrite !default_template_filled. intros [= H].
  repeat apply (inj (String.append _)) in H.
  by apply string_append_inv_tail in H.
Qed.

Lemma default_template_injective_witness : "Say hello." = "Say hello.".
Proof.
  apply (default_template_injective "Say hello." "Say hello."). reflexivity.
Defined.
